(** * tools/generate_package_config.py

    A shallow embedding of the launcher script that runs the checked-in
    Dart SDK's [dart pub get --offline] from the SDK root, and the
    properties of it that the specification states.

    The script is forty lines of Python: three path computations, one
    [subprocess.run] and one [sys.exit].  What it computes depends on the
    machine it runs on (the script's own location, the symbolic links of
    the file system, the platform name, which [os.path] module the
    interpreter loaded, the parent's environment, what is stored at the
    executable's path).  All of that is gathered in a record [World]; the
    functions of the script read it, and the two effectful ones run in a
    small monad [Py] that records every request to start a program and
    propagates Python exceptions.

    Definitions come first (strings, [os.path], the machine, the effects,
    the script), then the facts about strings and [posixpath], then the
    properties of the script, C1 to C10, and further ones, X1 to X7. *)

From Stdlib Require Import ZArith Ascii String.
From stdpp Require Import base option list strings gmap.

Local Open Scope Z_scope.

(** ** The operations of Python's [str] that [posixpath] uses *)

Module Str.

(** [s.startswith(prefix)] *)
Definition startswith (s pre : string) : bool := String.prefix pre s.

(** [s.endswith(suffix)]: some tail of [s] is [suffix]. *)
Fixpoint endswith (s suf : string) : bool :=
  if String.eqb s suf then true
  else match s with
       | EmptyString => false
       | String _ s' => endswith s' suf
       end.

(** [s.rfind(c)] for a one-character [c]: the highest index at which
    [c] occurs, [-1] when it does not occur. *)
Fixpoint rfind (s : string) (c : ascii) : Z :=
  match s with
  | EmptyString => -1
  | String a s' =>
      let i := rfind s' c in
      if 0 <=? i then i + 1
      else if Ascii.eqb a c then 0 else -1
  end.

(** [s[:i]] and [s[i:]] for [0 <= i]. *)
Definition slice_to (s : string) (i : Z) : string :=
  String.substring 0 (Z.to_nat i) s.
Definition slice_from (s : string) (i : Z) : string :=
  String.substring (Z.to_nat i) (String.length s - Z.to_nat i) s.

(** [c * n] for a one-character [c]. *)
Fixpoint mul (c : ascii) (n : nat) : string :=
  match n with
  | O => EmptyString
  | S n' => String c (mul c n')
  end.

(** [s.rstrip(c)] for a one-character [c]. *)
Fixpoint rstrip (s : string) (c : ascii) : string :=
  match s with
  | EmptyString => EmptyString
  | String a s' =>
      match rstrip s' c with
      | EmptyString => if Ascii.eqb a c then EmptyString else String a EmptyString
      | r => String a r
      end
  end.

(** [c in s] for a one-character [c]. *)
Fixpoint contains (s : string) (c : ascii) : bool :=
  match s with
  | EmptyString => false
  | String a s' => Ascii.eqb a c || contains s' c
  end.

(** Truth value of a string: [if s] holds for the non-empty ones. *)
Definition truthy (s : string) : bool :=
  match s with EmptyString => false | _ => true end.

End Str.

(** ** The [os.path] interface

    The script calls [os.path.dirname] and [os.path.join]; which module
    stands behind [os.path] ([posixpath] or [ntpath]) is decided by the
    interpreter.  [basename] is part of the same interface and is used
    here to speak about the last component of a computed path.  Of the
    two modules [posixpath] is written out below; what is proved of
    [ntpath] is what holds of every [PathModule]. *)

Record PathModule := {
  sep : ascii;
  dirname : string → string;
  basename : string → string;
  join : string → list string → string
}.

Module posixpath.

Definition sep : ascii := "/"%char.
Abbreviation sep_str := (String sep EmptyString).

(** One round of the loop of [posixpath.join]:
<<
    if b.startswith(sep):           path = b
    elif not path or path.endswith(sep): path += b
    else:                           path += sep + b
>> *)
Definition join_step (path b : string) : string :=
  if Str.startswith b sep_str then b
  else if negb (Str.truthy path) || Str.endswith path sep_str then path +:+ b
  else path +:+ sep_str +:+ b.

(** [posixpath.join(a, *p)] *)
Definition join (a : string) (p : list string) : string :=
  fold_left join_step p a.

(** [posixpath.dirname(p)]:
<<
    i = p.rfind(sep) + 1
    head = p[:i]
    if head and head != sep*len(head):
        head = head.rstrip(sep)
    return head
>> *)
Definition dirname (p : string) : string :=
  let i := Str.rfind p sep + 1 in
  let head := Str.slice_to p i in
  if Str.truthy head && negb (String.eqb head (Str.mul sep (String.length head)))
  then Str.rstrip head sep
  else head.

(** [posixpath.basename(p)]:
<<
    i = p.rfind(sep) + 1
    return p[i:]
>> *)
Definition basename (p : string) : string :=
  let i := Str.rfind p sep + 1 in
  Str.slice_from p i.

End posixpath.

(** [os.path] on Linux, macOS and the other POSIX systems. *)
Definition posix : PathModule :=
  {| sep := posixpath.sep;
     dirname := posixpath.dirname;
     basename := posixpath.basename;
     join := posixpath.join |}.

(** ** Shapes of POSIX paths

    Words for the statements about [posixpath]; none of this is code of
    the script. *)

Module Lexical.
Import posixpath.

(** A name of one path component: no separator in it. *)
Definition component (name : string) : Prop := Str.contains name sep = false.

(** A directory path as [dirname] returns them: not empty, and either
    made of separators only (the root) or not ending in one. *)
Definition normal (d : string) : Prop :=
  d ≠ "" ∧ (Str.endswith d sep_str = false ∨ d = Str.mul sep (String.length d)).

(** The separator that [join] puts between [path] and a relative part. *)
Definition glue (path : string) : string :=
  if negb (Str.truthy path) || Str.endswith path sep_str then "" else sep_str.

(** [p] lies under the directory [d], lexically: it is [d] joined with a
    relative path that is not empty. *)
Definition inside (d p : string) : Prop :=
  ∃ rel, rel ≠ "" ∧ Str.startswith rel sep_str = false
         ∧ p = join d [rel].

End Lexical.

(** ** The machine the script runs on *)

(** How a child process ended.  [subprocess] reports an exit code as it
    is and a death by signal [n] as [-n]. *)
Inductive termination :=
  | Exited (code : Z)
  | Signaled (signum : Z).

Definition returncode_of (t : termination) : Z :=
  match t with
  | Exited code => code
  | Signaled signum => - signum
  end.

(** What the operating system finds at the path of a program to start:
    nothing, a file it may not execute, or a program, whose run is a
    function of its command line, working directory and environment. *)
Inductive file_status :=
  | Missing
  | NotExecutable
  | Program (run : list string → string → gmap string string → termination).

Record World := {
  (** the module global [__file__] *)
  __file__ : string;
  (** [os.path.realpath]: the file system's resolution of symbolic links *)
  realpath : string → string;
  (** [platform.system()] *)
  platform_system : string;
  (** the module behind [os.path] *)
  os_path : PathModule;
  (** [os.environ], the environment of the launcher itself *)
  environ : gmap string string;
  (** the file at a path, looked up from a working directory *)
  lookup_executable : string → string → file_status;
  (** the width in bits of a process exit status: 8 on POSIX systems,
      32 on Windows *)
  status_bits : Z
}.

Definition with_file (f : string) (w : World) : World :=
  {| __file__ := f; realpath := realpath w; platform_system := platform_system w;
     os_path := os_path w; environ := environ w;
     lookup_executable := lookup_executable w; status_bits := status_bits w |}.

Definition with_environ (e : gmap string string) (w : World) : World :=
  {| __file__ := __file__ w; realpath := realpath w;
     platform_system := platform_system w; os_path := os_path w; environ := e;
     lookup_executable := lookup_executable w; status_bits := status_bits w |}.

Definition with_system (s : string) (w : World) : World :=
  {| __file__ := __file__ w; realpath := realpath w; platform_system := s;
     os_path := os_path w; environ := environ w;
     lookup_executable := lookup_executable w; status_bits := status_bits w |}.

(** ** Effects: child processes and exceptions *)

Inductive exn :=
  | FileNotFoundError (filename : string)
  | PermissionError (filename : string)
  | IndexError
  | SystemExit (code : Z).

(** A request to the operating system to start a program: the command
    line, the working directory and the complete environment of the
    child, and what became of it (the error of the failed start, or how
    the child ended). *)
Record Launch := {
  l_args : list string;
  l_cwd : string;
  l_env : gmap string string;
  l_result : exn + termination
}.

(** A computation that may start child processes and may raise. *)
Definition Py (A : Type) : Type := list Launch → (exn + A) * list Launch.

Global Instance Py_ret : MRet Py := λ A x tr, (inr x, tr).
Global Instance Py_bind : MBind Py := λ A B f m tr,
  match m tr with
  | (inl e, tr') => (inl e, tr')
  | (inr x, tr') => f x tr'
  end.

Definition raise {A} (e : exn) : Py A := λ tr, (inl e, tr).

Record CompletedProcess := {
  cp_args : list string;
  returncode : Z
}.

(** The operating system starting [executable] and letting it run to
    its end: the error of the failed [exec], or how the child ended. *)
Definition start_program (w : World) (executable : string) (args : list string)
    (cwd : string) (env : gmap string string) : exn + termination :=
  match lookup_executable w cwd executable with
  | Missing => inl (FileNotFoundError executable)
  | NotExecutable => inl (PermissionError executable)
  | Program run => inr (run args cwd env)
  end.

(** [subprocess.run(args, cwd=cwd, env=env)].  With [env=None] the child
    inherits [os.environ]; a mapping given as [env] replaces it.  The
    call returns when the child has ended.  A program that cannot be
    started raises the [OSError] of the failed [exec]. *)
Definition subprocess_run (w : World) (args : list string) (cwd : string)
    (env : option (gmap string string)) : Py CompletedProcess :=
  λ tr,
    match args with
    | [] => (inl IndexError, tr)
    | executable :: _ =>
        let child_env := default (environ w) env in
        let r := start_program w executable args cwd child_env in
        let tr' :=
          tr ++ [{| l_args := args; l_cwd := cwd; l_env := child_env;
                    l_result := r |}] in
        match r with
        | inl e => (inl e, tr')
        | inr t => (inr {| cp_args := args; returncode := returncode_of t |}, tr')
        end
    end.

(** [sys.exit(code)] for an integer [code]. *)
Definition sys_exit {A} (code : Z) : Py A := raise (SystemExit code).

(** The exit status of the interpreter process: [0] when the script runs
    to its end, the code of a [SystemExit] cut to the width of an exit
    status, and [1] for any other exception that nothing caught. *)
Definition exit_status {A} (w : World) (r : exn + A) : Z :=
  match r with
  | inr _ => 0
  | inl (SystemExit code) => Z.land code (Z.ones (status_bits w))
  | inl _ => 1
  end.

(** ** The script *)

Definition is_windows (w : World) : bool :=
  let os_id := platform_system w in
  bool_decide (os_id = "Windows").

Definition checked_in_sdk_path (w : World) : string :=
  let tools_dir := dirname (os_path w) (realpath w (__file__ w)) in
  join (os_path w) tools_dir ["sdks"; "dart-sdk"].

Definition checked_in_sdk_executable (w : World) : string :=
  let name := "dart" in
  let name := if is_windows w then "dart.exe" else name in
  join (os_path w) (checked_in_sdk_path w) ["bin"; name].

Definition generate_package_config (w : World) : Py Z :=
  let sdk_dir :=
    dirname (os_path w) (dirname (os_path w) (realpath w (__file__ w))) in
  process ← subprocess_run w
    [checked_in_sdk_executable w; "pub"; "get"; "--offline"]
    sdk_dir
    (Some (<["PUB_CACHE" := join (os_path w) sdk_dir [".dart_tool/sdk_pub_cache"]]>
             (<["PUB_HOSTED_URL" := "http://fake/pub"]> ∅)));
  mret (returncode process).

Definition Main (w : World) : Py () :=
  code ← generate_package_config w;
  sys_exit code.

(** Running the script as a program: [Main()] from an empty history. *)
Definition run_script (w : World) : (exn + ()) * list Launch := Main w [].

Definition outcome (w : World) : exn + () := (run_script w).1.
Definition launches (w : World) : list Launch := (run_script w).2.

(** ** Sample machines *)

(** A file system in which only the checked-in [dart] exists; the stub
    ends in the given way whatever it is asked. *)
Definition only_dart (dart : string) (t : termination) (cwd path : string) :
    file_status :=
  if decide (path = dart) then Program (λ _ _ _, t) else Missing.

(** Symbolic links as a table from link to target; other paths are
    their own real path. *)
Definition resolve (links : gmap string string) (p : string) : string :=
  default p (links !! p).

Definition linux_world (t : termination) : World :=
  {| __file__ := "/src/sdk/tools/generate_package_config.py";
     realpath := resolve (<["/usr/local/bin/gen-config" :=
                             "/src/sdk/tools/generate_package_config.py"]> ∅);
     platform_system := "Linux";
     os_path := posix;
     environ := <["PATH" := "/usr/bin:/bin"]>
                  (<["PUB_HOSTED_URL" := "https://pub.dev"]>
                     (<["HOME" := "/home/dev"]> ∅));
     lookup_executable :=
       only_dart "/src/sdk/tools/sdks/dart-sdk/bin/dart" t;
     status_bits := 8 |}.

(** ** Facts about the string operations *)

Section str_facts.
Implicit Types (s x y f : string) (a c : ascii).

Lemma str_app_cons a x y : String a x +:+ y = String a (x +:+ y).
Proof. reflexivity. Qed.

Lemma str_app_nil y : "" +:+ y = y.
Proof. reflexivity. Qed.

Lemma str_length_app x y :
  String.length (x +:+ y) = (String.length x + String.length y)%nat.
Proof. induction x as [|a x IH]; [done|]. rewrite str_app_cons. simpl. by rewrite IH. Qed.

Lemma rfind_lower s c : -1 ≤ Str.rfind s c.
Proof.
  induction s as [|a s IH]; simpl; [lia|].
  destruct (0 <=? Str.rfind s c) eqn:E; [lia|]. destruct (Ascii.eqb a c); lia.
Qed.

Lemma rfind_absent s c : Str.contains s c = false → Str.rfind s c = -1.
Proof.
  induction s as [|a s IH]; simpl; [done|].
  intros [Ha Hs]%orb_false_iff. rewrite (IH Hs), Ha. reflexivity.
Qed.

Lemma rfind_app_char x f c :
  Str.contains f c = false →
  Str.rfind (x +:+ String c f) c = Z.of_nat (String.length x).
Proof.
  intros Hf. induction x as [|a x IH].
  - rewrite str_app_nil. simpl. rewrite (rfind_absent _ _ Hf), Ascii.eqb_refl. reflexivity.
  - rewrite str_app_cons. cbn [Str.rfind String.length]. rewrite IH.
    destruct (Z.leb_spec 0 (Z.of_nat (String.length x))); lia.
Qed.

Lemma substring_0_app x y n :
  String.substring 0 (String.length x + n) (x +:+ y) = x +:+ String.substring 0 n y.
Proof. induction x as [|a x IH]; [done|]. rewrite !str_app_cons. simpl. by rewrite IH. Qed.

Lemma substring_0_0 y : String.substring 0 0 y = "".
Proof. by destruct y. Qed.

Lemma substring_0_length y : String.substring 0 (String.length y) y = y.
Proof. induction y as [|a y IH]; [done|]. simpl. by rewrite IH. Qed.

Lemma str_app_nil_r x : x +:+ "" = x.
Proof. induction x as [|a x IH]; [done|]. rewrite str_app_cons. by rewrite IH. Qed.

Lemma str_app_assoc x y z : (x +:+ y) +:+ z = x +:+ y +:+ z.
Proof. induction x as [|a x IH]; [done|]. rewrite !str_app_cons. by rewrite IH. Qed.

Lemma slice_to_app x y :
  Str.slice_to (x +:+ y) (Z.of_nat (String.length x)) = x.
Proof.
  unfold Str.slice_to. rewrite Nat2Z.id.
  rewrite <-(Nat.add_0_r (String.length x)), substring_0_app, substring_0_0.
  apply str_app_nil_r.
Qed.

Lemma substring_skip_app x y m :
  String.substring (String.length x) m (x +:+ y) = String.substring 0 m y.
Proof. induction x as [|a x IH]; [done|]. rewrite str_app_cons. simpl. apply IH. Qed.

Lemma slice_from_app x y :
  Str.slice_from (x +:+ y) (Z.of_nat (String.length x)) = y.
Proof.
  unfold Str.slice_from. rewrite Nat2Z.id, substring_skip_app, str_length_app.
  replace (String.length x + String.length y - String.length x)%nat
    with (String.length y) by lia.
  apply substring_0_length.
Qed.

Lemma slice_from_0 y : Str.slice_from y 0 = y.
Proof. apply (slice_from_app "" y). Qed.

Lemma endswith_app x y c :
  y ≠ "" → Str.endswith (x +:+ y) (String c "") = Str.endswith y (String c "").
Proof.
  intros Hy. induction x as [|a x IH]; [done|].
  rewrite str_app_cons. cbn [Str.endswith]. rewrite IH.
  destruct (String.eqb_spec (String a (x +:+ y)) (String c "")) as [E|_]; [|done].
  injection E as _ E. destruct x; [by destruct y|done].
Qed.

Lemma endswith_absent s c : Str.contains s c = false → Str.endswith s (String c "") = false.
Proof.
  induction s as [|a s IH]; [done|]. simpl.
  intros [Ha Hs]%orb_false_iff. rewrite (IH Hs).
  destruct s; simpl; [by rewrite Ha|]. by destruct (Ascii.eqb a c).
Qed.

Lemma endswith_split s c :
  Str.endswith s (String c "") = true → ∃ x, s = x +:+ String c "".
Proof.
  induction s as [|a s IH]; [done|]. cbn [Str.endswith].
  destruct (String.eqb_spec (String a s) (String c "")) as [E|_].
  - intros _. exists "". by rewrite E.
  - intros [x ->]%IH. by exists (String a x).
Qed.

Lemma startswith_absent s c : Str.contains s c = false → Str.startswith s (String c "") = false.
Proof.
  destruct s as [|a s]; [done|]. simpl. intros [Ha _]%orb_false_iff.
  unfold Str.startswith. simpl. destruct (ascii_dec c a) as [->|]; [|done].
  by rewrite Ascii.eqb_refl in Ha.
Qed.

Lemma rstrip_app_char x c :
  Str.endswith x (String c "") = false → Str.rstrip (x +:+ String c "") c = x.
Proof.
  induction x as [|a x IH]; intros Hx.
  - rewrite str_app_nil. simpl. by rewrite Ascii.eqb_refl.
  - rewrite str_app_cons. cbn [Str.rstrip]. cbn [Str.endswith] in Hx.
    destruct (String.eqb_spec (String a x) (String c "")) as [|Hne]; [done|].
    rewrite (IH Hx). destruct x; [|done].
    destruct (Ascii.eqb_spec a c) as [->|]; done.
Qed.

Lemma mul_endswith c n : Str.endswith (Str.mul c (S n)) (String c "") = true.
Proof.
  induction n as [|n IH]; [simpl; by rewrite Ascii.eqb_refl|].
  change (Str.mul c (S (S n))) with (String c (Str.mul c (S n))).
  cbn [Str.endswith]. rewrite IH. by destruct (String.eqb _ _).
Qed.

Lemma app_char_mul x c n : x +:+ String c "" = Str.mul c n → x = Str.mul c (pred n).
Proof.
  revert n. induction x as [|a x IH]; intros n.
  - rewrite str_app_nil. destruct n as [|[|n]]; simpl; congruence.
  - rewrite str_app_cons. destruct n as [|n]; [done|]. simpl. intros [= -> E].
    rewrite (IH _ E). destruct n; [by destruct x|done].
Qed.

Lemma app_char_not_mul x c n :
  x ≠ "" → Str.endswith x (String c "") = false → x +:+ String c "" ≠ Str.mul c n.
Proof.
  intros Hx He E%app_char_mul. subst x.
  destruct (pred n); [done|]. by rewrite mul_endswith in He.
Qed.

Lemma mul_length c n : String.length (Str.mul c n) = n.
Proof. induction n; simpl; congruence. Qed.

End str_facts.

(** ** Facts about [posixpath] *)

Module posix_facts.
Import posixpath Lexical.

Lemma join_step_relative path b :
  Str.startswith b sep_str = false → join_step path b = path +:+ glue path +:+ b.
Proof.
  intros Hb. unfold join_step, glue. rewrite Hb.
  by destruct (negb (Str.truthy path) || Str.endswith path sep_str).
Qed.

Lemma join_snoc a p b : join a (p ++ [b]) = join_step (join a p) b.
Proof. unfold join. by rewrite fold_left_app. Qed.

Lemma join_cons a b p : join a (b :: p) = join (join a [b]) p.
Proof. reflexivity. Qed.

(** What precedes a component after a [join] is empty or ends in the
    separator. *)
Lemma join_step_component path name :
  component name →
  ∃ pre, join_step path name = pre +:+ name
         ∧ (pre = "" ∨ ∃ x, pre = x +:+ sep_str).
Proof.
  intros Hn. rewrite join_step_relative by by apply startswith_absent.
  unfold glue. destruct path as [|a path]; cbn [Str.truthy negb orb].
  { exists "". auto. }
  destruct (Str.endswith (String a path) sep_str) eqn:E.
  - exists (String a path). split; [done|]. right. by apply endswith_split.
  - exists (String a path +:+ sep_str). rewrite str_app_assoc. eauto.
Qed.

(** Cutting [x/name] at its last separator. *)
Lemma cut_index x name :
  component name →
  Str.rfind (x +:+ sep_str +:+ name) sep + 1
  = Z.of_nat (String.length (x +:+ sep_str)).
Proof.
  intros Hn. change (sep_str +:+ name) with (String sep name).
  rewrite (rfind_app_char _ _ _ Hn), str_length_app. simpl. lia.
Qed.

Lemma cut_head x name :
  component name →
  Str.slice_to (x +:+ sep_str +:+ name)
    (Str.rfind (x +:+ sep_str +:+ name) sep + 1) = x +:+ sep_str.
Proof.
  intros Hn. rewrite (cut_index _ _ Hn), <-str_app_assoc. apply slice_to_app.
Qed.

Lemma cut_tail x name :
  component name →
  Str.slice_from (x +:+ sep_str +:+ name)
    (Str.rfind (x +:+ sep_str +:+ name) sep + 1) = name.
Proof.
  intros Hn. rewrite (cut_index _ _ Hn), <-str_app_assoc. apply slice_from_app.
Qed.

Lemma basename_component pre name :
  component name → (pre = "" ∨ ∃ x, pre = x +:+ sep_str) →
  basename (pre +:+ name) = name.
Proof.
  intros Hn [->|[x ->]]; unfold basename.
  - rewrite str_app_nil, (rfind_absent _ _ Hn). apply slice_from_0.
  - rewrite str_app_assoc. by apply cut_tail.
Qed.

(** The last component of a joined path is the last name joined. *)
Lemma basename_join a p name :
  component name → basename (join a (p ++ [name])) = name.
Proof.
  intros Hn. rewrite join_snoc.
  destruct (join_step_component (join a p) name Hn) as (pre & -> & Hpre).
  by apply basename_component.
Qed.

Lemma join_step_normal d name :
  component name → name ≠ "" → normal (join_step d name).
Proof.
  intros Hn Hne. rewrite join_step_relative by by apply startswith_absent.
  split.
  - destruct d; [by destruct name|done].
  - left. rewrite <-str_app_assoc, (endswith_app _ _ sep) by done.
    by apply endswith_absent.
Qed.

Lemma dirname_cut x name :
  component name →
  dirname (x +:+ sep_str +:+ name)
  = if decide (x +:+ sep_str = Str.mul sep (String.length (x +:+ sep_str)))
    then x +:+ sep_str else Str.rstrip (x +:+ sep_str) sep.
Proof.
  intros Hn. unfold dirname. rewrite (cut_head _ _ Hn).
  destruct (String.eqb_spec (x +:+ sep_str)
              (Str.mul sep (String.length (x +:+ sep_str)))) as [E|E];
    case_decide; try done.
  - by rewrite Bool.andb_false_r.
  - by destruct x.
Qed.

(** [dirname] undoes the [join] of one component onto a directory. *)
Lemma dirname_join_step d name :
  normal d → component name → dirname (join_step d name) = d.
Proof.
  intros [Hd Hshape] Hn.
  rewrite join_step_relative by by apply startswith_absent.
  unfold glue. destruct d as [|a d]; [done|]. cbn [Str.truthy negb orb].
  destruct Hshape as [E|E].
  - rewrite E, (dirname_cut _ _ Hn). case_decide as Hm.
    + by apply app_char_not_mul in Hm.
    + by apply rstrip_app_char.
  - assert (Hend : Str.endswith (String a d) sep_str = true).
    { rewrite E. simpl String.length. apply mul_endswith. }
    rewrite Hend, str_app_nil.
    destruct (endswith_split _ _ Hend) as [x Hx].
    rewrite Hx in E |- *. rewrite str_app_assoc, (dirname_cut _ _ Hn).
    by case_decide.
Qed.

(** The parent of the directory of [d/t/f] is [d]. *)
Lemma dirname_dirname_join d t f :
  normal d → component t → t ≠ "" → component f →
  dirname (dirname (join d [t; f])) = d.
Proof.
  intros Hd Ht Hne Hf. rewrite join_cons. change (join d [t]) with (join_step d t).
  change (join (join_step d t) [f]) with (join_step (join_step d t) f).
  rewrite dirname_join_step by auto using join_step_normal.
  by apply dirname_join_step.
Qed.

(** A path joined onto a relative part starts with that path and is longer. *)
Lemma join_step_extends path b :
  Str.startswith b sep_str = false → b ≠ "" →
  ∃ rest, rest ≠ "" ∧ join_step path b = path +:+ rest.
Proof.
  intros Hb Hne. rewrite join_step_relative by done.
  exists (glue path +:+ b). split; [|done].
  unfold glue. destruct (_ || _); [done|]. discriminate.
Qed.

End posix_facts.

(** ** The definitions on sample inputs *)

Example posix_join_1 :
  posixpath.join "/sdk/tools" ["sdks"; "dart-sdk"] = "/sdk/tools/sdks/dart-sdk".
Proof. reflexivity. Qed.
Example posix_join_2 : posixpath.join "/" ["bin"; "dart"] = "/bin/dart".
Proof. reflexivity. Qed.
Example posix_join_3 : posixpath.join "a" ["/b"; "c"] = "/b/c".
Proof. reflexivity. Qed.
Example posix_dirname_1 : posixpath.dirname "/sdk/tools/gen.py" = "/sdk/tools".
Proof. reflexivity. Qed.
Example posix_dirname_2 : posixpath.dirname "/gen.py" = "/".
Proof. reflexivity. Qed.
Example posix_dirname_3 : posixpath.dirname "//a///b" = "//a".
Proof. reflexivity. Qed.
Example posix_dirname_4 : posixpath.dirname "gen.py" = "".
Proof. reflexivity. Qed.
Example posix_basename_1 : posixpath.basename "/sdk/bin/dart.exe" = "dart.exe".
Proof. reflexivity. Qed.

Example linux_exe :
  checked_in_sdk_executable (linux_world (Exited 0))
  = "/src/sdk/tools/sdks/dart-sdk/bin/dart".
Proof. vm_compute. reflexivity. Qed.

Example linux_exit_7 :
  exit_status (linux_world (Exited 7)) (outcome (linux_world (Exited 7))) = 7.
Proof. vm_compute. reflexivity. Qed.

Example linux_launch :
  ∃ l, launches (linux_world (Exited 7)) = [l]
       ∧ l_args l = ["/src/sdk/tools/sdks/dart-sdk/bin/dart"; "pub"; "get"; "--offline"]
       ∧ l_cwd l = "/src/sdk"
       ∧ l_env l !! "PUB_CACHE" = Some "/src/sdk/.dart_tool/sdk_pub_cache"
       ∧ l_env l !! "PUB_HOSTED_URL" = Some "http://fake/pub"
       ∧ l_env l !! "PATH" = None
       ∧ l_result l = inr (Exited 7).
Proof. eexists. split; [vm_compute; reflexivity|]. vm_compute. repeat split. Qed.

(** A child killed by signal 9 has the return code [-9]; that is no exit
    code, and the status of the launcher is its low eight bits. *)
Example linux_killed :
  outcome (linux_world (Signaled 9)) = inl (SystemExit (-9))
  ∧ exit_status (linux_world (Signaled 9)) (outcome (linux_world (Signaled 9))) = 247.
Proof. split; vm_compute; reflexivity. Qed.

Example windows_name :
  checked_in_sdk_executable (with_system "Windows" (linux_world (Exited 0)))
  = "/src/sdk/tools/sdks/dart-sdk/bin/dart.exe".
Proof. vm_compute. reflexivity. Qed.

Example windows_missing :
  outcome (with_system "Windows" (linux_world (Exited 0)))
  = inl (FileNotFoundError "/src/sdk/tools/sdks/dart-sdk/bin/dart.exe")
  ∧ exit_status (with_system "Windows" (linux_world (Exited 0)))
      (outcome (with_system "Windows" (linux_world (Exited 0)))) = 1.
Proof. split; vm_compute; reflexivity. Qed.

Example symlink_same_launch :
  launches (with_file "/usr/local/bin/gen-config" (linux_world (Exited 3)))
  = launches (linux_world (Exited 3)).
Proof. vm_compute. reflexivity. Qed.

(** ** The run of the script *)

(** The script makes one request to start a program, and what comes of
    that request decides how the script ends. *)
Lemma run_script_eq (w : World) :
  let sdk_dir := dirname (os_path w) (dirname (os_path w) (realpath w (__file__ w))) in
  let args := [checked_in_sdk_executable w; "pub"; "get"; "--offline"] in
  let env : gmap string string :=
    <["PUB_CACHE" := join (os_path w) sdk_dir [".dart_tool/sdk_pub_cache"]]>
      (<["PUB_HOSTED_URL" := "http://fake/pub"]> ∅) in
  let r := start_program w (checked_in_sdk_executable w) args sdk_dir env in
  run_script w =
    (match r with
     | inl e => inl e
     | inr t => inl (SystemExit (returncode_of t))
     end,
     [{| l_args := args; l_cwd := sdk_dir; l_env := env; l_result := r |}]).
Proof.
  intros sdk_dir args env r.
  unfold run_script, Main, generate_package_config, subprocess_run.
  unfold mbind, Py_bind, mret, Py_ret, sys_exit, raise.
  cbn [default]. subst r. fold sdk_dir args env.
  by destruct (start_program _ _ _ _ _).
Qed.

Lemma launches_eq (w : World) :
  let sdk_dir := dirname (os_path w) (dirname (os_path w) (realpath w (__file__ w))) in
  let args := [checked_in_sdk_executable w; "pub"; "get"; "--offline"] in
  let env : gmap string string :=
    <["PUB_CACHE" := join (os_path w) sdk_dir [".dart_tool/sdk_pub_cache"]]>
      (<["PUB_HOSTED_URL" := "http://fake/pub"]> ∅) in
  launches w =
    [{| l_args := args; l_cwd := sdk_dir; l_env := env;
        l_result := start_program w (checked_in_sdk_executable w) args sdk_dir env |}].
Proof. intros. unfold launches. by rewrite run_script_eq. Qed.

Lemma outcome_eq (w : World) (l : Launch) :
  l ∈ launches w →
  outcome w = match l_result l with
              | inl e => inl e
              | inr t => inl (SystemExit (returncode_of t))
              end.
Proof.
  rewrite launches_eq. intros ->%list_elem_of_singleton.
  unfold outcome. by rewrite run_script_eq.
Qed.

(** ** Exit status *)

Lemma exit_status_SystemExit {A} (w : World) (c : Z) :
  0 ≤ c < 2 ^ status_bits w → exit_status (A:=A) w (inl (SystemExit c)) = c.
Proof.
  intros Hc. unfold exit_status.
  destruct (Z.le_gt_cases 0 (status_bits w)) as [Hb|Hb].
  - rewrite Z.land_ones by done. by apply Z.mod_small.
  - rewrite Z.pow_neg_r in Hc by done. lia.
Qed.

(** C1. Whatever exit code [c] the child process returns, [Main] ends in
    [sys.exit(c)] with that very code, and the exit status of the
    launcher is [c]: [0] for [0], and every other code unchanged. *)
Theorem exit_code_propagated (w : World) (l : Launch) (c : Z) :
  l ∈ launches w →
  l_result l = inr (Exited c) →
  0 ≤ c < 2 ^ status_bits w →
  outcome w = inl (SystemExit c) ∧ exit_status w (outcome w) = c.
Proof.
  intros Hl Hr Hc. rewrite (outcome_eq w l Hl), Hr. cbn [returncode_of].
  split; [done|]. by apply exit_status_SystemExit.
Qed.

Lemma exit_code_propagated_witness :
  outcome (linux_world (Exited 7)) = inl (SystemExit 7)
  ∧ exit_status (linux_world (Exited 7)) (outcome (linux_world (Exited 7))) = 7.
Proof.
  eapply exit_code_propagated with (c := 7);
    [rewrite launches_eq; apply list_elem_of_singleton; reflexivity
    | vm_compute; reflexivity
    | change (0 ≤ 7 < 2 ^ 8); lia ].
Defined.

(** ** The environment of the child *)

Lemma with_environ_script (e : gmap string string) (w : World) :
  run_script (with_environ e w) = run_script w.
Proof. by rewrite !run_script_eq. Qed.

(** C2. Whatever the environment of the launcher, the environment of the
    child has the two keys [PUB_HOSTED_URL] and [PUB_CACHE] and no other:
    a variable of the parent under another name is not passed on, and
    replacing the parent's environment by any other changes nothing of
    what is launched. *)
Theorem child_env_replaces_parent_env (w : World) :
  ∃ l, launches w = [l]
    ∧ dom (l_env l) = ({["PUB_HOSTED_URL"; "PUB_CACHE"]} : gset string)
    ∧ (∀ k, is_Some (environ w !! k) →
            k ≠ "PUB_HOSTED_URL" → k ≠ "PUB_CACHE" → l_env l !! k = None)
    ∧ (∀ parent_env, launches (with_environ parent_env w) = [l]).
Proof.
  eexists. split; [apply launches_eq|]. cbn [l_env]. split; [|split].
  - rewrite !dom_insert_L, dom_empty_L. set_solver.
  - intros k _ Hu Hc. by rewrite !lookup_insert_ne, lookup_empty.
  - intros e. unfold launches. rewrite with_environ_script. apply launches_eq.
Qed.

Lemma child_env_replaces_parent_env_witness :
  ∃ l, launches (linux_world (Exited 0)) = [l]
    ∧ is_Some (environ (linux_world (Exited 0)) !! "PATH")
    ∧ l_env l !! "PATH" = None
    ∧ launches (with_environ ∅ (linux_world (Exited 0))) = [l].
Proof.
  destruct (child_env_replaces_parent_env (linux_world (Exited 0)))
    as (l & Hl & _ & Hk & He).
  assert (Hp : is_Some (environ (linux_world (Exited 0)) !! "PATH")).
  { eexists. vm_compute. reflexivity. }
  exists l. split; [exact Hl|]. split; [exact Hp|]. split; [|apply He].
  apply Hk; [exact Hp|discriminate..].
Defined.

(** ** The paths *)

(** C3. On every platform the file name of the executable is the one of
    that platform: [dart.exe] when [platform.system()] is [Windows], and
    [dart] for every other platform name.  It is the last part joined to
    the path, and with [posixpath] the last component of the result. *)
Theorem executable_name_by_platform (w : World) :
  let name :=
    if decide (platform_system w = "Windows") then "dart.exe" else "dart" in
  checked_in_sdk_executable w
  = join (os_path w) (checked_in_sdk_path w) ["bin"; name]
  ∧ (os_path w = posix →
     basename (os_path w) (checked_in_sdk_executable w) = name).
Proof.
  intros name.
  assert (E : checked_in_sdk_executable w
              = join (os_path w) (checked_in_sdk_path w) ["bin"; name]).
  { unfold checked_in_sdk_executable, is_windows. subst name.
    cbv zeta. by case_bool_decide; case_decide. }
  split; [done|]. intros Hp. rewrite E, Hp. cbn [basename join posix].
  apply (posix_facts.basename_join _ ["bin"]).
  unfold name. by case_decide.
Qed.

Lemma executable_name_by_platform_witness :
  basename posix
    (checked_in_sdk_executable (with_system "Windows" (linux_world (Exited 0))))
  = "dart.exe"
  ∧ basename posix (checked_in_sdk_executable (linux_world (Exited 0))) = "dart".
Proof.
  split.
  - exact (proj2 (executable_name_by_platform
                    (with_system "Windows" (linux_world (Exited 0)))) eq_refl).
  - exact (proj2 (executable_name_by_platform (linux_world (Exited 0))) eq_refl).
Defined.

(** C4. The working directory of the child is the parent directory of
    the directory that holds the script: [dirname] twice of the script's
    real path.  With [posixpath], for a script [d/t/f] it is [d]. *)
Theorem cwd_is_parent_of_script_dir (w : World) :
  ∃ l, launches w = [l]
    ∧ l_cwd l
      = dirname (os_path w) (dirname (os_path w) (realpath w (__file__ w)))
    ∧ (∀ d t f,
         os_path w = posix →
         Lexical.normal d →
         Lexical.component t → t ≠ "" → Lexical.component f →
         realpath w (__file__ w) = posixpath.join d [t; f] →
         l_cwd l = d).
Proof.
  eexists. split; [apply launches_eq|]. cbn [l_cwd]. split; [done|].
  intros d t f -> Hd Ht Hne Hf ->. cbn [dirname posix].
  by apply posix_facts.dirname_dirname_join.
Qed.

Lemma cwd_is_parent_of_script_dir_witness :
  ∃ l, launches (linux_world (Exited 0)) = [l] ∧ l_cwd l = "/src/sdk".
Proof.
  destruct (cwd_is_parent_of_script_dir (linux_world (Exited 0)))
    as (l & Hl & _ & H).
  exists l. split; [exact Hl|].
  apply (H "/src/sdk" "tools" "generate_package_config.py").
  - reflexivity.
  - split; [discriminate|]. left. reflexivity.
  - reflexivity.
  - discriminate.
  - reflexivity.
  - vm_compute. reflexivity.
Defined.

(** C5. The child is started with the path of the executable followed by
    the three arguments [pub], [get] and [--offline], once; the script
    goes on only when the child has ended, and ends in [sys.exit] of the
    child's return code, so with the child's exit status. *)
Theorem fixed_command_line_and_exit (w : World) :
  ∃ l, launches w = [l]
    ∧ l_args l = [checked_in_sdk_executable w; "pub"; "get"; "--offline"]
    ∧ (∀ t, l_result l = inr t →
            outcome w = inl (SystemExit (returncode_of t)))
    ∧ (∀ c, l_result l = inr (Exited c) → 0 ≤ c < 2 ^ status_bits w →
            exit_status w (outcome w) = c).
Proof.
  eexists. split; [apply launches_eq|]. cbn [l_args l_result].
  split; [done|]. unfold outcome. rewrite run_script_eq. cbn [fst].
  split.
  - by intros t ->.
  - intros c -> Hc. by apply exit_status_SystemExit.
Qed.

Lemma fixed_command_line_and_exit_witness :
  exit_status (linux_world (Exited 7)) (outcome (linux_world (Exited 7))) = 7.
Proof.
  destruct (fixed_command_line_and_exit (linux_world (Exited 7)))
    as (l & Hl & _ & _ & H).
  apply H.
  - rewrite launches_eq in Hl. injection Hl as <-. vm_compute. reflexivity.
  - change (0 ≤ 7 < 2 ^ 8). lia.
Defined.

Lemma inside_extends d p : Lexical.inside d p → ∃ rest, rest ≠ "" ∧ p = d +:+ rest.
Proof.
  intros (rel & Hne & Hrel & ->).
  by apply (posix_facts.join_step_extends d rel).
Qed.

Lemma str_app_prefix x rest : String.prefix x (x +:+ rest) = true.
Proof.
  induction x as [|a x IH]; [by destruct rest|].
  rewrite str_app_cons. simpl. by destruct (ascii_dec a a).
Qed.

(** The values of the two variables in the environment of the child. *)
Lemma launch_env (w : World) :
  ∃ l, launches w = [l]
    ∧ l_env l !! "PUB_HOSTED_URL" = Some "http://fake/pub"
    ∧ l_env l !! "PUB_CACHE"
      = Some (join (os_path w) (l_cwd l) [".dart_tool/sdk_pub_cache"])
    ∧ l_cwd l
      = dirname (os_path w) (dirname (os_path w) (realpath w (__file__ w))).
Proof.
  eexists. split; [apply launches_eq|]. cbn [l_env l_cwd].
  rewrite lookup_insert_ne by done. by rewrite !lookup_insert_eq.
Qed.

(** C6 as the specification states it, with the cache directory under
    the directory of the script, fails: for the script
    [/src/sdk/tools/generate_package_config.py] the cache is
    [/src/sdk/.dart_tool/sdk_pub_cache], outside [/src/sdk/tools]. *)
Lemma pub_cache_not_under_tools_dir :
  ¬ (∀ (w : World) (l : Launch) (v : string),
       os_path w = posix →
       l ∈ launches w →
       l_env l !! "PUB_CACHE" = Some v →
       Lexical.inside (dirname (os_path w) (realpath w (__file__ w))) v).
Proof.
  intros H.
  destruct (launch_env (linux_world (Exited 0))) as (l & Hl & _ & Hc & Hcwd).
  assert (Hin : l ∈ launches (linux_world (Exited 0))).
  { rewrite Hl. by apply list_elem_of_singleton. }
  pose proof (H (linux_world (Exited 0)) l _ eq_refl Hin Hc) as Hi.
  apply inside_extends in Hi as (rest & _ & E).
  rewrite Hcwd in E. vm_compute in E. discriminate E.
Qed.

Lemma glue_app x y :
  y ≠ "" → Str.endswith y posixpath.sep_str = false →
  Lexical.glue (x +:+ y) = posixpath.sep_str.
Proof.
  intros Hy He. unfold Lexical.glue.
  rewrite (endswith_app _ _ posixpath.sep) by done. rewrite He.
  destruct x; [by destruct y|done].
Qed.

Lemma dirname_child x name :
  x ≠ "" → Str.endswith x posixpath.sep_str = false →
  Lexical.component name →
  posixpath.dirname (x +:+ posixpath.sep_str +:+ name) = x.
Proof.
  intros Hx He Hn. rewrite (posix_facts.dirname_cut _ _ Hn). case_decide as Hm.
  - by apply app_char_not_mul in Hm.
  - by apply rstrip_app_char.
Qed.

(** Joining two relative parts, the first of which is a name. *)
Lemma join_two a b c :
  Lexical.component b → b ≠ "" → Str.startswith c posixpath.sep_str = false →
  posixpath.join a [b; c]
  = (a +:+ Lexical.glue a +:+ b) +:+ posixpath.sep_str +:+ c.
Proof.
  intros Hb Hne Hc. unfold posixpath.join. cbn [fold_left].
  rewrite (posix_facts.join_step_relative a b) by by apply startswith_absent.
  rewrite posix_facts.join_step_relative by done.
  rewrite <-(str_app_assoc a), glue_app by auto using endswith_absent.
  by rewrite !str_app_assoc.
Qed.

(** C6, as the script has it. The environment of the child sets
    [PUB_HOSTED_URL] to the fake address [http://fake/pub], and
    [PUB_CACHE] to [.dart_tool/sdk_pub_cache] joined to the parent of the
    directory of the script: a path under that parent directory, which is
    the working directory of the child, and not under the directory of
    the script itself. *)
Theorem child_env_values (w : World) :
  let tools_dir := dirname (os_path w) (realpath w (__file__ w)) in
  let sdk_dir := dirname (os_path w) tools_dir in
  ∃ l, launches w = [l]
    ∧ l_env l !! "PUB_HOSTED_URL" = Some "http://fake/pub"
    ∧ l_env l !! "PUB_CACHE"
      = Some (join (os_path w) sdk_dir [".dart_tool/sdk_pub_cache"])
    ∧ (os_path w = posix →
       Lexical.inside sdk_dir (join (os_path w) sdk_dir [".dart_tool/sdk_pub_cache"])).
Proof.
  intros tools_dir sdk_dir.
  destruct (launch_env w) as (l & Hl & Hu & Hc & Hcwd). fold tools_dir sdk_dir in Hcwd.
  exists l. rewrite Hcwd in Hc. repeat split; [done..|].
  intros ->. by exists ".dart_tool/sdk_pub_cache".
Qed.

Lemma child_env_values_witness :
  Lexical.inside "/src/sdk" "/src/sdk/.dart_tool/sdk_pub_cache".
Proof.
  destruct (child_env_values (linux_world (Exited 0))) as (l & _ & _ & _ & H).
  pose proof (H eq_refl) as Hi. vm_compute in Hi. vm_compute. exact Hi.
Defined.

(** C7. The SDK is at a fixed place relative to the script: its root is
    [sdks/dart-sdk] joined to the directory of the script's real path,
    and the executable is the platform's file name joined to [bin] in
    that root.  With [posixpath] these are the strings
    [tools_dir/sdks/dart-sdk] and [root/bin/name], the executable lies in
    the directory [root/bin], and that directory lies in the root. *)
Theorem sdk_layout (w : World) :
  let tools_dir := dirname (os_path w) (realpath w (__file__ w)) in
  let name :=
    if decide (platform_system w = "Windows") then "dart.exe" else "dart" in
  checked_in_sdk_path w = join (os_path w) tools_dir ["sdks"; "dart-sdk"]
  ∧ checked_in_sdk_executable w
    = join (os_path w) (checked_in_sdk_path w) ["bin"; name]
  ∧ (os_path w = posix →
     checked_in_sdk_path w
     = tools_dir +:+ Lexical.glue tools_dir +:+ "sdks/dart-sdk"
     ∧ checked_in_sdk_executable w = checked_in_sdk_path w +:+ "/bin/" +:+ name
     ∧ dirname (os_path w) (checked_in_sdk_executable w)
       = checked_in_sdk_path w +:+ "/bin"
     ∧ dirname (os_path w) (checked_in_sdk_path w +:+ "/bin")
       = checked_in_sdk_path w).
Proof.
  intros tools_dir name.
  assert (Hn : Lexical.component name) by (unfold name; by case_decide).
  assert (E : checked_in_sdk_executable w
              = join (os_path w) (checked_in_sdk_path w) ["bin"; name]).
  { unfold checked_in_sdk_executable, is_windows. subst name.
    cbv zeta. by case_bool_decide; case_decide. }
  split; [done|]. split; [done|]. intros Hp.
  assert (R : checked_in_sdk_path w
              = (tools_dir +:+ Lexical.glue tools_dir +:+ "sdks/dart-sdk")).
  { unfold checked_in_sdk_path. fold tools_dir. rewrite Hp. cbn [join posix].
    rewrite join_two by done. by rewrite !str_app_assoc. }
  assert (Rne : checked_in_sdk_path w ≠ "").
  { rewrite R. destruct tools_dir; [|done]. done. }
  assert (Rend : Str.endswith (checked_in_sdk_path w) posixpath.sep_str = false).
  { rewrite R, <-str_app_assoc. by rewrite (endswith_app _ _ posixpath.sep). }
  assert (G : Lexical.glue (checked_in_sdk_path w) = "/").
  { unfold Lexical.glue. rewrite Rend.
    by destruct (checked_in_sdk_path w). }
  split; [done|]. rewrite E, Hp. cbn [join dirname posix].
  rewrite join_two by (done || by apply startswith_absent). rewrite G.
  split; [by rewrite !str_app_assoc|]. split.
  - apply dirname_child; [|by rewrite (endswith_app _ _ posixpath.sep)|done].
    by destruct (checked_in_sdk_path w).
  - by apply (dirname_child _ "bin").
Qed.

Lemma sdk_layout_witness :
  checked_in_sdk_path (linux_world (Exited 0)) = "/src/sdk/tools/sdks/dart-sdk"
  ∧ checked_in_sdk_executable (linux_world (Exited 0))
    = "/src/sdk/tools/sdks/dart-sdk/bin/dart"
  ∧ posixpath.dirname "/src/sdk/tools/sdks/dart-sdk/bin/dart"
    = "/src/sdk/tools/sdks/dart-sdk/bin".
Proof.
  destruct (sdk_layout (linux_world (Exited 0))) as (_ & _ & H).
  destruct (H eq_refl) as (H1 & H2 & H3 & _).
  assert (E1 : checked_in_sdk_path (linux_world (Exited 0))
               = "/src/sdk/tools/sdks/dart-sdk").
  { rewrite H1. vm_compute. reflexivity. }
  rewrite E1 in H2, H3. split; [exact E1|].
  assert (E2 : checked_in_sdk_executable (linux_world (Exited 0))
               = "/src/sdk/tools/sdks/dart-sdk/bin/dart").
  { rewrite H2. vm_compute. reflexivity. }
  rewrite E2 in H3. split; [exact E2|]. exact H3.
Defined.

(** ** Failure to start the executable *)

(** C8. When no file is at the path of the executable, or the file there
    may not be executed, the launcher ends with a status other than zero:
    the error that [subprocess.run] raises is not caught, classified or
    replaced anywhere in the script, and ends the interpreter. *)
Theorem missing_executable_fails (w : World) :
  let sdk_dir :=
    dirname (os_path w) (dirname (os_path w) (realpath w (__file__ w))) in
  let exe := checked_in_sdk_executable w in
  lookup_executable w sdk_dir exe = Missing
  ∨ lookup_executable w sdk_dir exe = NotExecutable →
  exit_status w (outcome w) ≠ 0
  ∧ (lookup_executable w sdk_dir exe = Missing →
     outcome w = inl (FileNotFoundError exe))
  ∧ (lookup_executable w sdk_dir exe = NotExecutable →
     outcome w = inl (PermissionError exe))
  ∧ ∃ l e, launches w = [l] ∧ l_result l = inl e ∧ outcome w = inl e.
Proof.
  intros sdk_dir exe H. unfold outcome, launches. rewrite run_script_eq.
  fold sdk_dir exe. unfold start_program. cbn [fst snd].
  destruct H as [-> | ->]; (split; [done|]);
    (split; [done|]); (split; [done|]); by eexists _, _.
Qed.

Lemma missing_executable_fails_witness :
  exit_status (with_system "Windows" (linux_world (Exited 0)))
      (outcome (with_system "Windows" (linux_world (Exited 0)))) ≠ 0.
Proof.
  apply (missing_executable_fails (with_system "Windows" (linux_world (Exited 0)))).
  left. vm_compute. reflexivity.
Defined.

(** ** The cache directory and the working directory *)

(** C9. The value of [PUB_CACHE] is the working directory of the same
    launch joined with [.dart_tool/sdk_pub_cache].  With [posixpath]
    that is a path under the working directory: the working directory,
    a separator where it does not end in one, and the relative path; so
    it starts with the working directory and is longer. *)
Theorem pub_cache_inside_cwd (w : World) :
  ∃ l v, launches w = [l]
    ∧ l_env l !! "PUB_CACHE" = Some v
    ∧ v = join (os_path w) (l_cwd l) [".dart_tool/sdk_pub_cache"]
    ∧ (os_path w = posix →
       Lexical.inside (l_cwd l) v
       ∧ v = l_cwd l +:+ Lexical.glue (l_cwd l) +:+ ".dart_tool/sdk_pub_cache"
       ∧ Str.startswith v (l_cwd l) = true
       ∧ (String.length (l_cwd l) < String.length v)%nat).
Proof.
  destruct (launch_env w) as (l & Hl & _ & Hc & _).
  exists l, (join (os_path w) (l_cwd l) [".dart_tool/sdk_pub_cache"]).
  split; [done|]. split; [done|]. split; [done|].
  intros Hp. rewrite Hp. cbn [join posix]. repeat split.
  - by exists ".dart_tool/sdk_pub_cache".
  - by apply (posix_facts.join_step_relative (l_cwd l)).
  - change (posixpath.join (l_cwd l) [".dart_tool/sdk_pub_cache"])
      with (posixpath.join_step (l_cwd l) ".dart_tool/sdk_pub_cache").
    rewrite posix_facts.join_step_relative by done. apply str_app_prefix.
  - change (posixpath.join (l_cwd l) [".dart_tool/sdk_pub_cache"])
      with (posixpath.join_step (l_cwd l) ".dart_tool/sdk_pub_cache").
    rewrite posix_facts.join_step_relative by done.
    rewrite !str_length_app. simpl. lia.
Qed.

Lemma pub_cache_inside_cwd_witness :
  ∃ l v, launches (linux_world (Exited 0)) = [l]
    ∧ l_env l !! "PUB_CACHE" = Some v
    ∧ Lexical.inside (l_cwd l) v.
Proof.
  destruct (pub_cache_inside_cwd (linux_world (Exited 0)))
    as (l & v & Hl & Hv & _ & H).
  exists l, v. split; [exact Hl|]. split; [exact Hv|]. apply H. reflexivity.
Defined.

(** ** Symbolic links *)

Lemma with_file_script (w : World) (f1 f2 : string) :
  realpath w f1 = realpath w f2 →
  checked_in_sdk_path (with_file f1 w) = checked_in_sdk_path (with_file f2 w)
  ∧ checked_in_sdk_executable (with_file f1 w)
    = checked_in_sdk_executable (with_file f2 w).
Proof.
  intros H. unfold checked_in_sdk_executable, checked_in_sdk_path, is_windows.
  cbn [__file__ realpath os_path platform_system with_file]. by rewrite H.
Qed.

(** C10. The paths depend on the script's location through its real path
    only.  Started through two names [f1] and [f2] of one file (two
    symbolic links, or a link and the file), the script computes the same
    SDK root, the same executable and the same working directory, and
    launches the same program in the same way. *)
Theorem symlinks_do_not_matter (w : World) (f1 f2 : string) :
  realpath w f1 = realpath w f2 →
  checked_in_sdk_path (with_file f1 w) = checked_in_sdk_path (with_file f2 w)
  ∧ checked_in_sdk_executable (with_file f1 w)
    = checked_in_sdk_executable (with_file f2 w)
  ∧ l_cwd <$> launches (with_file f1 w) = l_cwd <$> launches (with_file f2 w)
  ∧ run_script (with_file f1 w) = run_script (with_file f2 w).
Proof.
  intros H. destruct (with_file_script w f1 f2 H) as [Hp He].
  assert (R : run_script (with_file f1 w) = run_script (with_file f2 w)).
  { rewrite !run_script_eq, He.
    cbn [__file__ realpath os_path lookup_executable with_file]. by rewrite H. }
  repeat split; [done..| |done]. unfold launches. by rewrite R.
Qed.

Lemma symlinks_do_not_matter_witness :
  "/usr/local/bin/gen-config" ≠ "/src/sdk/tools/generate_package_config.py"
  ∧ run_script (with_file "/usr/local/bin/gen-config" (linux_world (Exited 3)))
    = run_script (with_file "/src/sdk/tools/generate_package_config.py"
                    (linux_world (Exited 3))).
Proof.
  split; [done|].
  apply (symlinks_do_not_matter (linux_world (Exited 3))). vm_compute. reflexivity.
Defined.

(** * Further properties of the script *)

(** ** Success and failure of the launcher *)

Lemma land_ones_neg (n b : Z) :
  0 < n < 2 ^ b → Z.land (- n) (Z.ones b) = 2 ^ b - n.
Proof.
  intros Hn. destruct (Z.le_gt_cases 0 b) as [Hb|Hb].
  - rewrite Z.land_ones by done. symmetry.
    apply (Z.mod_unique (- n) (2 ^ b) (-1)); lia.
  - rewrite Z.pow_neg_r in Hn by done. lia.
Qed.

(** The result of the launch the script makes is what [start_program]
    gives for it. *)
Lemma launch_result (w : World) (l : Launch) :
  l ∈ launches w →
  l_result l
  = start_program w (checked_in_sdk_executable w) (l_args l) (l_cwd l) (l_env l).
Proof. rewrite launches_eq. by intros ->%list_elem_of_singleton. Qed.

(** X1. The launcher reports success exactly when the child was started
    and ended with exit code [0]: a missing or forbidden executable, an
    exit code other than [0] and a death by signal all give a status
    other than [0]. *)
Theorem success_iff_child_success (w : World) (l : Launch) :
  l ∈ launches w →
  (∀ c, l_result l = inr (Exited c) → 0 ≤ c < 2 ^ status_bits w) →
  (∀ n, l_result l = inr (Signaled n) → 0 < n < 2 ^ status_bits w) →
  exit_status w (outcome w) = 0 ↔ l_result l = inr (Exited 0).
Proof.
  intros Hl Hc Hs. rewrite (outcome_eq w l Hl).
  pose proof (launch_result w l Hl) as Hr. unfold start_program in Hr.
  destruct (l_result l) as [e|[c|n]].
  - destruct (lookup_executable _ _ _); simplify_eq; by split.
  - cbn [returncode_of]. rewrite exit_status_SystemExit by auto.
    split; [by intros ->|by intros [= ->]].
  - cbn [returncode_of exit_status]. rewrite land_ones_neg by auto.
    specialize (Hs n eq_refl). split; [lia|done].
Qed.

Lemma success_iff_child_success_witness :
  exit_status (linux_world (Exited 0)) (outcome (linux_world (Exited 0))) = 0
  ∧ exit_status (linux_world (Signaled 9)) (outcome (linux_world (Signaled 9))) ≠ 0.
Proof.
  split.
  - eapply success_iff_child_success;
      [rewrite launches_eq; apply list_elem_of_singleton; reflexivity|..];
      cbn [l_result]; vm_compute start_program.
    + intros c [= <-]. change (0 ≤ 0 < 2 ^ 8). lia.
    + intros n [=].
    + reflexivity.
  - intros H. eapply success_iff_child_success in H;
      [|rewrite launches_eq; apply list_elem_of_singleton; reflexivity|..];
      cbn [l_result] in *; vm_compute start_program in *.
    + discriminate H.
    + intros c [=].
    + intros n [= <-]. change (0 < 9 < 2 ^ 8). lia.
Defined.

(** X2. A child killed by signal [n] has the return code [-n], which
    [Main] hands to [sys.exit] as it is: the status of the launcher is
    [2 ^ bits - n] (on a POSIX system [256 - n]), and never [0]. *)
Theorem signal_death_status (w : World) (l : Launch) (n : Z) :
  l ∈ launches w →
  l_result l = inr (Signaled n) →
  0 < n < 2 ^ status_bits w →
  outcome w = inl (SystemExit (- n))
  ∧ exit_status w (outcome w) = 2 ^ status_bits w - n
  ∧ exit_status w (outcome w) ≠ 0.
Proof.
  intros Hl Hr Hn. rewrite (outcome_eq w l Hl), Hr.
  cbn [returncode_of exit_status]. rewrite land_ones_neg by done.
  repeat split. lia.
Qed.

Lemma signal_death_status_witness :
  exit_status (linux_world (Signaled 9)) (outcome (linux_world (Signaled 9))) = 247.
Proof.
  eapply (signal_death_status (linux_world (Signaled 9)) _ 9);
    [rewrite launches_eq; apply list_elem_of_singleton; reflexivity
    | vm_compute; reflexivity
    | change (0 < 9 < 2 ^ 8); lia].
Defined.

(** ** The shape of the paths that [posixpath] computes *)

Lemma rstrip_empty (s : string) (c : ascii) :
  Str.rstrip s c = "" → s = Str.mul c (String.length s).
Proof.
  induction s as [|a s IH]; [done|]. cbn [Str.rstrip String.length Str.mul].
  destruct (Str.rstrip s c) eqn:E; [|done].
  destruct (Ascii.eqb_spec a c) as [->|]; [|done].
  intros _. by rewrite <-IH.
Qed.

Lemma endswith_cons (a : ascii) (s suf : string) :
  Str.endswith (String a s) suf
  = if String.eqb (String a s) suf then true else Str.endswith s suf.
Proof. reflexivity. Qed.

Lemma rstrip_not_endswith (s : string) (c : ascii) :
  Str.endswith (Str.rstrip s c) (String c "") = false.
Proof.
  induction s as [|a s IH]; [done|]. cbn [Str.rstrip].
  destruct (Str.rstrip s c) as [|b r] eqn:E.
  - destruct (Ascii.eqb_spec a c) as [->|Hne]; [done|].
    cbn. destruct (Ascii.eqb_spec a c); done.
  - rewrite endswith_cons, IH.
    destruct (String.eqb_spec (String a (String b r)) (String c "")); done.
Qed.

Lemma rfind_first (s : string) (c : ascii) : 0 ≤ Str.rfind (String c s) c.
Proof.
  cbn [Str.rfind]. pose proof (rfind_lower s c).
  destruct (Z.leb_spec 0 (Str.rfind s c)); [lia|]. by rewrite Ascii.eqb_refl.
Qed.

Lemma startswith_cons (s : string) (c : ascii) :
  Str.startswith (String c s) (String c "") = true.
Proof.
  unfold Str.startswith. cbn. destruct (ascii_dec c c); [|done]. by destruct s.
Qed.

Lemma startswith_inv (s : string) (c : ascii) :
  Str.startswith s (String c "") = true → ∃ s', s = String c s'.
Proof.
  unfold Str.startswith. destruct s as [|a s]; [done|]. cbn.
  destruct (ascii_dec c a) as [->|]; [eauto|done].
Qed.

(** [dirname] gives the empty string, a string of separators, or a path
    that does not end in a separator. *)
Lemma dirname_shape (p : string) :
  posixpath.dirname p = "" ∨ Lexical.normal (posixpath.dirname p).
Proof.
  unfold posixpath.dirname.
  set (head := Str.slice_to p (Str.rfind p posixpath.sep + 1)).
  destruct head as [|a h] eqn:E; [by left|]. right. cbn [Str.truthy andb].
  destruct (String.eqb_spec (String a h)
              (Str.mul posixpath.sep (String.length (String a h)))) as [Hm|Hm];
    cbn [negb].
  - split; [done|]. by right.
  - split.
    + intros Hr%rstrip_empty. done.
    + left. apply rstrip_not_endswith.
Qed.

(** The directory of an absolute path is absolute. *)
Lemma dirname_absolute (p : string) :
  Str.startswith p posixpath.sep_str = true →
  Str.startswith (posixpath.dirname p) posixpath.sep_str = true.
Proof.
  intros [p' ->]%startswith_inv. unfold posixpath.dirname.
  pose proof (rfind_first p' posixpath.sep) as Hi.
  unfold Str.slice_to.
  replace (Z.to_nat (Str.rfind (String posixpath.sep p') posixpath.sep + 1))
    with (S (Z.to_nat (Str.rfind (String posixpath.sep p') posixpath.sep)))
    by lia.
  cbn [String.substring].
  set (h := String.substring 0 _ p'). cbn [Str.truthy andb].
  destruct (String.eqb_spec (String posixpath.sep h)
              (Str.mul posixpath.sep (String.length (String posixpath.sep h))))
    as [Hm|Hm]; cbn [negb]; [apply startswith_cons|].
  cbn [Str.rstrip]. destruct (Str.rstrip h posixpath.sep) eqn:E.
  - apply rstrip_empty in E. destruct Hm. cbn [String.length Str.mul]. by rewrite <-E.
  - apply startswith_cons.
Qed.

Lemma join_step_absolute (a b : string) :
  Str.startswith a posixpath.sep_str = true →
  Str.startswith (posixpath.join_step a b) posixpath.sep_str = true.
Proof.
  intros Ha. unfold posixpath.join_step.
  destruct (Str.startswith b posixpath.sep_str) eqn:Hb; [done|].
  apply startswith_inv in Ha as [a' ->].
  destruct (_ || _); rewrite str_app_cons; apply startswith_cons.
Qed.

(** Joining anything to an absolute path gives an absolute path. *)
Lemma join_absolute (a : string) (p : list string) :
  Str.startswith a posixpath.sep_str = true →
  Str.startswith (posixpath.join a p) posixpath.sep_str = true.
Proof.
  revert a. induction p as [|b p IH]; intros a Ha; [done|].
  apply IH. by apply join_step_absolute.
Qed.

(** X3. With [posixpath], when the real path of the script is absolute,
    so are the three paths handed to the child: the executable, the
    working directory and the cache directory.  None of them depends on
    the directory the launcher was started from. *)
Theorem absolute_paths (w : World) :
  os_path w = posix →
  Str.startswith (realpath w (__file__ w)) "/" = true →
  Str.startswith (checked_in_sdk_executable w) "/" = true
  ∧ ∃ l v, launches w = [l]
      ∧ l_args l !! 0%nat = Some (checked_in_sdk_executable w)
      ∧ Str.startswith (l_cwd l) "/" = true
      ∧ l_env l !! "PUB_CACHE" = Some v
      ∧ Str.startswith v "/" = true.
Proof.
  intros Hp Habs.
  assert (Hexe : Str.startswith (checked_in_sdk_executable w) "/" = true).
  { unfold checked_in_sdk_executable, checked_in_sdk_path. rewrite Hp.
    cbn [join dirname posix]. by do 2 apply join_absolute; apply dirname_absolute. }
  split; [done|].
  destruct (launch_env w) as (l & Hl & _ & Hc & Hcwd).
  assert (Hd : Str.startswith (l_cwd l) "/" = true).
  { rewrite Hcwd, Hp. cbn [dirname posix]. by do 2 apply dirname_absolute. }
  exists l, (join (os_path w) (l_cwd l) [".dart_tool/sdk_pub_cache"]).
  split; [done|]. split.
  { rewrite launches_eq in Hl. by injection Hl as <-. }
  split; [done|]. split; [done|].
  rewrite Hp. cbn [join posix]. by apply join_absolute.
Qed.

Lemma absolute_paths_witness :
  Str.startswith (checked_in_sdk_executable (linux_world (Exited 0))) "/" = true.
Proof.
  apply (absolute_paths (linux_world (Exited 0))); [reflexivity|].
  vm_compute. reflexivity.
Defined.

(** X4. With [posixpath], the working directory handed to the child is
    as [dirname] leaves it: empty, or not ending in a separator unless it
    is made of separators only (the root); and it is not empty when the
    real path of the script is absolute. *)
Theorem cwd_has_no_trailing_separator (w : World) :
  os_path w = posix →
  ∃ l, launches w = [l]
    ∧ (l_cwd l = "" ∨ Lexical.normal (l_cwd l))
    ∧ (Str.startswith (realpath w (__file__ w)) "/" = true →
       Lexical.normal (l_cwd l)).
Proof.
  intros Hp. destruct (launch_env w) as (l & Hl & _ & _ & Hcwd).
  exists l. split; [done|]. rewrite Hcwd, Hp. cbn [dirname posix].
  split; [apply dirname_shape|]. intros Habs.
  destruct (dirname_shape
    (posixpath.dirname (realpath w (__file__ w)))) as [E|]; [|done].
  do 2 apply dirname_absolute in Habs. by rewrite E in Habs.
Qed.

Lemma cwd_has_no_trailing_separator_witness :
  ∃ l, launches (linux_world (Exited 0)) = [l] ∧ Lexical.normal (l_cwd l).
Proof.
  destruct (cwd_has_no_trailing_separator (linux_world (Exited 0)) eq_refl)
    as (l & Hl & _ & H).
  exists l. split; [exact Hl|]. apply H. vm_compute. reflexivity.
Defined.

(** ** The executable and the working directory *)

Lemma startswith_head (a c : ascii) (x y : string) :
  Str.startswith (String a x) (String c "") = Str.startswith (String a y) (String c "").
Proof.
  unfold Str.startswith. cbn. destruct (ascii_dec c a); [|done].
  by destruct x, y.
Qed.

Lemma component_relative (t : string) :
  Lexical.component t → Str.startswith t posixpath.sep_str = false.
Proof. apply startswith_absent. Qed.

Lemma executable_eq (w : World) :
  checked_in_sdk_executable w
  = join (os_path w) (checked_in_sdk_path w)
      ["bin"; if decide (platform_system w = "Windows") then "dart.exe" else "dart"].
Proof.
  unfold checked_in_sdk_executable, is_windows. cbv zeta.
  by case_bool_decide; case_decide.
Qed.

(** The executable for a script [d/t/f], as a string. *)
Lemma posix_executable (w : World) (d t f : string) :
  os_path w = posix →
  Lexical.normal d → Lexical.component t → t ≠ "" → Lexical.component f →
  realpath w (__file__ w) = posixpath.join d [t; f] →
  checked_in_sdk_executable w
  = d +:+ Lexical.glue d +:+ t +:+ "/sdks/dart-sdk/bin/"
      +:+ (if decide (platform_system w = "Windows") then "dart.exe" else "dart").
Proof.
  intros Hp Hd Ht Hne Hf Hreal.
  rewrite executable_eq. unfold checked_in_sdk_path. rewrite Hp, Hreal.
  cbn [join dirname posix].
  change (posixpath.join d [t; f])
    with (posixpath.join_step (posixpath.join_step d t) f).
  rewrite posix_facts.dirname_join_step
    by auto using posix_facts.join_step_normal.
  rewrite (posix_facts.join_step_relative d t) by by apply component_relative.
  assert (Hte : Str.endswith t posixpath.sep_str = false)
    by by apply endswith_absent.
  rewrite (join_two _ "sdks" "dart-sdk") by done.
  rewrite <-(str_app_assoc d), glue_app by done.
  rewrite (join_two _ "bin") by (done || case_decide; done).
  rewrite (glue_app _ (posixpath.sep_str +:+ "dart-sdk")) by done.
  by rewrite !str_app_assoc.
Qed.

(** X5. With [posixpath], for a script whose real path is [d/t/f] the
    child is started in [d] and the program started is
    [d/t/sdks/dart-sdk/bin/dart] (or [dart.exe]): the executable lies under
    the working directory of the child. *)
Theorem executable_under_cwd (w : World) (d t f : string) :
  os_path w = posix →
  Lexical.normal d → Lexical.component t → t ≠ "" → Lexical.component f →
  realpath w (__file__ w) = posixpath.join d [t; f] →
  ∃ l, launches w = [l]
    ∧ l_cwd l = d
    ∧ l_args l !! 0%nat
      = Some (d +:+ Lexical.glue d +:+ t +:+ "/sdks/dart-sdk/bin/"
                +:+ (if decide (platform_system w = "Windows")
                     then "dart.exe" else "dart"))
    ∧ Lexical.inside (l_cwd l) (checked_in_sdk_executable w).
Proof.
  intros Hp Hd Ht Hne Hf Hreal.
  pose proof (posix_executable w d t f Hp Hd Ht Hne Hf Hreal) as Hexe.
  destruct (launch_env w) as (l & Hl & _ & _ & Hcwd).
  assert (Hc : l_cwd l = d).
  { rewrite Hcwd, Hp, Hreal. cbn [dirname posix].
    by apply posix_facts.dirname_dirname_join. }
  exists l. split; [done|]. split; [done|]. split.
  { rewrite launches_eq in Hl. injection Hl as <-. cbn [l_args lookup].
    by rewrite <-Hexe. }
  rewrite Hc, Hexe.
  destruct t as [|a t']; [done|]. apply component_relative in Ht.
  set (rest := "/sdks/dart-sdk/bin/"
                 +:+ (if decide (platform_system w = "Windows")
                      then "dart.exe" else "dart")).
  assert (Ha : Str.startswith (String a (t' +:+ rest)) posixpath.sep_str = false)
    by by rewrite (startswith_head _ _ _ t').
  exists (String a (t' +:+ rest)). split; [done|]. split; [done|].
  change (posixpath.join d [String a (t' +:+ rest)])
    with (posixpath.join_step d (String a (t' +:+ rest))).
  by rewrite posix_facts.join_step_relative.
Qed.

Lemma executable_under_cwd_witness :
  ∃ l, launches (linux_world (Exited 0)) = [l]
    ∧ l_cwd l = "/src/sdk"
    ∧ Lexical.inside (l_cwd l) (checked_in_sdk_executable (linux_world (Exited 0))).
Proof.
  destruct (executable_under_cwd (linux_world (Exited 0))
              "/src/sdk" "tools" "generate_package_config.py")
    as (l & Hl & Hc & _ & Hi).
  - reflexivity.
  - split; [discriminate|]. left. reflexivity.
  - reflexivity.
  - discriminate.
  - reflexivity.
  - vm_compute. reflexivity.
  - exists l. split; [exact Hl|]. split; [exact Hc|exact Hi].
Defined.

(** ** The platform name *)

(** X6. The platform name decides the file name of the executable and
    nothing else: the SDK root, the working directory and the environment
    of the child are the same for every platform name, and under any two
    names other than [Windows] (the comparison is exact, also in case) the
    whole run is the same. *)
Theorem platform_only_names_executable (w : World) (s1 s2 : string) :
  checked_in_sdk_path (with_system s1 w) = checked_in_sdk_path (with_system s2 w)
  ∧ l_cwd <$> launches (with_system s1 w) = l_cwd <$> launches (with_system s2 w)
  ∧ l_env <$> launches (with_system s1 w) = l_env <$> launches (with_system s2 w)
  ∧ (s1 ≠ "Windows" → s2 ≠ "Windows" →
     run_script (with_system s1 w) = run_script (with_system s2 w)).
Proof.
  split; [done|]. rewrite !launches_eq. split; [done|]. split; [done|].
  intros H1 H2.
  assert (E : checked_in_sdk_executable (with_system s1 w)
              = checked_in_sdk_executable (with_system s2 w)).
  { rewrite !executable_eq. cbn [platform_system with_system].
    by rewrite !decide_False. }
  rewrite !run_script_eq, E. reflexivity.
Qed.

Lemma platform_only_names_executable_witness :
  run_script (with_system "Darwin" (linux_world (Exited 0)))
  = run_script (with_system "windows" (linux_world (Exited 0))).
Proof.
  apply (platform_only_names_executable (linux_world (Exited 0))); discriminate.
Defined.

(** ** A script in the root directory *)

(** X7. With [posixpath], for a script that lies in the root directory
    itself ([/f]), the working directory of the child is the root and so
    the directory of the script, not a directory above it; the SDK is
    looked for in [/sdks/dart-sdk] and the cache is [/.dart_tool/sdk_pub_cache]. *)
Theorem script_in_root_directory (w : World) (f : string) :
  os_path w = posix →
  Lexical.component f →
  realpath w (__file__ w) = "/" +:+ f →
  checked_in_sdk_path w = "/sdks/dart-sdk"
  ∧ ∃ l, launches w = [l]
      ∧ l_cwd l = "/"
      ∧ l_cwd l = dirname (os_path w) (realpath w (__file__ w))
      ∧ l_env l !! "PUB_CACHE" = Some "/.dart_tool/sdk_pub_cache".
Proof.
  intros Hp Hf Hreal.
  assert (Hd : posixpath.dirname ("/" +:+ f) = "/").
  { change ("/" +:+ f) with ("" +:+ posixpath.sep_str +:+ f).
    rewrite (posix_facts.dirname_cut _ _ Hf). by case_decide. }
  split.
  { unfold checked_in_sdk_path. rewrite Hp, Hreal. cbn [join dirname posix].
    by rewrite Hd. }
  destruct (launch_env w) as (l & Hl & _ & Hc & Hcwd).
  assert (E : l_cwd l = "/").
  { rewrite Hcwd, Hp, Hreal. cbn [dirname posix]. by rewrite Hd. }
  exists l. split; [done|]. split; [done|]. split.
  - rewrite E, Hp, Hreal. cbn [dirname posix]. by rewrite Hd.
  - rewrite Hc, E, Hp. reflexivity.
Qed.

Lemma script_in_root_directory_witness :
  checked_in_sdk_path
    (with_file "/generate_package_config.py" (linux_world (Exited 0)))
  = "/sdks/dart-sdk".
Proof.
  apply (script_in_root_directory
           (with_file "/generate_package_config.py" (linux_world (Exited 0)))
           "generate_package_config.py").
  - reflexivity.
  - reflexivity.
  - vm_compute. reflexivity.
Defined.
